(** * tableauserverclient.server.endpoint.endpoint

    A shallow embedding of [endpoint.py]: the header builder
    [_make_common_headers], the dispatcher [_make_request] with its five
    verb entry points, the status check [_check_status] and the version
    gate [api], together with the part of [distutils.version.LooseVersion]
    that the gate relies on.

    Python objects that the code mutates in place (the [parameters] and
    [http_options] dicts) live in a store of dict objects addressed by
    references; everything else is passed by value.  Effects are written
    in a state-and-exception monad over a [world] that also keeps a ghost
    [trace] of the calls the module makes to its collaborators. *)

From Stdlib Require Import ZArith NArith List Ascii String Strings.Byte Bool Lia.
From Stdlib Require Import DecimalString DecimalN DecimalPos.
From stdpp Require Import base option list strings gmap.

Local Open Scope string_scope.
Local Open Scope Z_scope.

(* ================================================================= *)
(** ** Python values, exceptions, results *)

Abbreviation bytes := (list byte).

(** The values that travel through the keyword dicts of this module:
    [None], scalars, payloads, and the (freshly built, never shared)
    header dict. *)
Inductive value :=
| VNone
| VBool (b : bool)
| VInt (n : Z)
| VStr (s : string)
| VBytes (b : bytes)
| VDict (d : gmap string string).

Abbreviation pydict := (gmap string value).

(** [x is not None] *)
Definition is_not_None (v : value) : bool :=
  match v with VNone => false | _ => true end.

(** The parsed body of a server error ([ServerResponseError] carries
    code, summary and detail). *)
Record error_detail := ErrorDetail {
  code : string;
  summary : string;
  detail : string
}.

Inductive exn :=
| EndpointUnavailableError (msg : string)
| ServerResponseError (e : error_detail)
| TypeError
| AttributeError
| ExternalError (name msg : string).

Inductive result (A : Type) :=
| Ok (a : A)
| Raise (e : exn).
Arguments Ok {A} a.
Arguments Raise {A} e.

(* ================================================================= *)
(** ** distutils.version.LooseVersion *)

Module LooseVersion.

(** A component is an [int] when [int(x)] succeeds and the matched
    [str] otherwise. *)
Inductive component :=
| CInt (n : N)
| CStr (s : string).

(** The three alternatives of
    [component_re = re.compile(r'(\d+ | [a-z]+ | \.)', re.VERBOSE)],
    and everything else. *)
Inductive char_class := Digit | Lower | Dot | Other.

Definition classify (c : ascii) : char_class :=
  let n := N_of_ascii c in
  if ((48 <=? n) && (n <=? 57))%N then Digit
  else if ((97 <=? n) && (n <=? 122))%N then Lower
  else if (n =? 46)%N then Dot
  else Other.

Definition class_eqb (a b : char_class) : bool :=
  match a, b with
  | Digit, Digit | Lower, Lower | Dot, Dot | Other, Other => true
  | _, _ => false
  end.

(** State of the left-to-right scan of [component_re.split]: between
    two matches, or inside a greedy [\d+] / [[a-z]+] match. *)
Inductive scan := InText | InRun (cls : char_class).

(** [component_re.split(vstring)]: the pattern has one capturing
    group, so the result alternates the text between matches (possibly
    empty) with the matched separators, and starts and ends with
    text.  [acc] is the piece being accumulated. *)
Fixpoint re_split (st : scan) (acc : string) (s : string) : list string :=
  match s with
  | EmptyString =>
      match st with
      | InText => [acc]
      | InRun _ => [acc; ""]
      end
  | String c s' =>
      let from_text (txt : string) :=
        match classify c with
        | Digit => txt :: re_split (InRun Digit) (String c "") s'
        | Lower => txt :: re_split (InRun Lower) (String c "") s'
        | Dot => txt :: "." :: re_split InText "" s'
        | Other => re_split InText (txt ++ String c "") s'
        end in
      match st with
      | InText => from_text acc
      | InRun cls =>
          if class_eqb (classify c) cls
          then re_split (InRun cls) (acc ++ String c "") s'
          else acc :: from_text ""
      end
  end.

Definition split (vstring : string) : list string :=
  re_split InText "" vstring.

(** [x and x != '.'] *)
Definition keep (x : string) : bool :=
  negb (String.eqb x "") && negb (String.eqb x ".").

(** [int(obj)], [None] standing for [ValueError].  On the pieces that
    [split] produces, [int] succeeds exactly on the runs of digits. *)
Definition int (x : string) : option N :=
  if String.eqb x "" then None
  else N.of_uint <$> NilEmpty.uint_of_string x.

Definition to_component (x : string) : component :=
  match int x with
  | Some n => CInt n
  | None => CStr x
  end.

(** [parse]: split, drop the empty pieces and the dots, convert. *)
Definition parse (vstring : string) : list component :=
  map to_component (filter (fun x => Is_true (keep x)) (split vstring)).

(** A version object.  [parse] is what sets the attributes [vstring]
    and [version]; an object on which it never ran has neither. *)
Inductive t :=
| Parsed (vstring : string) (version : list component)
| Bare.

(** [LooseVersion(vstring)]: [__init__] runs [if vstring: self.parse(vstring)],
    so the empty string is not parsed. *)
Definition new (s : string) : t :=
  if String.eqb s "" then Bare else Parsed s (parse s).

(** [v.version] and [v.vstring]: reading an attribute that was never
    set raises [AttributeError]. *)
Definition version (v : t) : result (list component) :=
  match v with
  | Parsed _ components => Ok components
  | Bare => Raise AttributeError
  end.

Definition vstring (v : t) : result string :=
  match v with
  | Parsed s _ => Ok s
  | Bare => Raise AttributeError
  end.

(** [str(v)] is the string the version was built from. *)
Definition str (v : t) : result string := vstring v.

Definition component_eqb (a b : component) : bool :=
  match a, b with
  | CInt n, CInt m => (n =? m)%N
  | CStr s, CStr u => String.eqb s u
  | _, _ => false
  end.

(** [a < b] on components: integers by value, strings by code point,
    [None] for the [TypeError] that Python 3 raises when an int meets
    a str. *)
Definition component_ltb (a b : component) : option bool :=
  match a, b with
  | CInt n, CInt m => Some (n <? m)%N
  | CStr s, CStr u => Some (String.ltb s u)
  | _, _ => None
  end.

(** [a == b] on lists. *)
Fixpoint list_eqb (a b : list component) : bool :=
  match a, b with
  | [], [] => true
  | x :: a', y :: b' => component_eqb x y && list_eqb a' b'
  | _, _ => false
  end.

(** [a < b] on lists: the first position where the items differ
    decides; a proper prefix is smaller. *)
Fixpoint list_ltb (a b : list component) : option bool :=
  match a, b with
  | [], [] => Some false
  | [], _ :: _ => Some true
  | _ :: _, [] => Some false
  | x :: a', y :: b' =>
      if component_eqb x y then list_ltb a' b' else component_ltb x y
  end.

(** [LooseVersion._cmp]: [0], [-1] or [1]; falling off the end
    returns [None], on which [c < 0] raises as well. *)
Definition _cmp (self other : t) : result Z :=
  match version self with
  | Raise e => Raise e
  | Ok a =>
      match version other with
      | Raise e => Raise e
      | Ok b =>
          if list_eqb a b then Ok 0
          else
            match list_ltb a b with
            | None => Raise TypeError
            | Some true => Ok (-1)
            | Some false =>
                match list_ltb b a with
                | None => Raise TypeError
                | Some true => Ok 1
                | Some false => Raise TypeError
                end
            end
      end
  end.

(** [Version.__lt__] *)
Definition lt (self other : t) : result bool :=
  match _cmp self other with
  | Ok c => Ok (c <? 0)
  | Raise e => Raise e
  end.

(** [Version.__gt__] *)
Definition gt (self other : t) : result bool :=
  match _cmp self other with
  | Ok c => Ok (0 <? c)
  | Raise e => Raise e
  end.

End LooseVersion.

(** [from distutils.version import LooseVersion as Version]: the name
    the module ends up with wherever [distutils2] is not installed. *)
Abbreviation Version := LooseVersion.new.

(* ================================================================= *)
(** ** The world: dict store, session context, transport, trace *)

Abbreviation loc := positive.

Inductive verb := GET | PUT | POST | DELETE.

(** The transport's raw result: [status_code], [content], [encoding]. *)
Module Response.
Record t := Make {
  status_code : Z;
  content : bytes;
  encoding : option string
}.
End Response.

(** Modelled from the spec: the query-spec decorator ([request_object])
    is defined outside this file; all the gateway does with it is ask it
    to rewrite the URL. *)
Record RequestOptions := {
  apply_query_params : string -> string
}.

(** The fields of [parent_srv] that this module reads.  [http_options]
    is a reference: the dict itself is in the store. *)
Module Server.
Record t := Make {
  auth_token : option string;
  version : string;
  http_options : loc
}.
End Server.

(** Ghost record of the calls made to collaborators, oldest first. *)
Inductive event :=
| EvInvoke (args : list value) (kwargs : pydict)
| EvTransport (method : verb) (url : string) (kwargs : pydict)
| EvDecode (body : bytes) (enc : string)
| EvLog (msg : string).

(** [T] is the private state of the transport session. *)
Record world (T : Type) := World {
  heap : gmap loc pydict;
  parent_srv : Server.t;
  session : T;
  trace : list event
}.
Arguments World {T} _ _ _ _.
Arguments heap {T} _.
Arguments parent_srv {T} _.
Arguments session {T} _.
Arguments trace {T} _.

(** State and exceptions.  A raised exception keeps the state reached so
    far: Python does not roll anything back. *)
Definition M (T A : Type) : Type := world T -> result A * world T.

Section Monad.
Context {T : Type}.

Definition ret {A} (a : A) : M T A := fun w => (Ok a, w).

Definition raise {A} (e : exn) : M T A := fun w => (Raise e, w).

Definition bind {A B} (m : M T A) (f : A -> M T B) : M T B :=
  fun w =>
    match m w with
    | (Ok a, w') => f a w'
    | (Raise e, w') => (Raise e, w')
    end.

Definition lift {A} (r : result A) : M T A := fun w => (r, w).

Definition gets {A} (f : world T -> A) : M T A := fun w => (Ok (f w), w).

Definition set_heap (h : gmap loc pydict) : M T unit :=
  fun w => (Ok tt, World h (parent_srv w) (session w) (trace w)).

Definition emit (e : event) : M T unit :=
  fun w => (Ok tt, World (heap w) (parent_srv w) (session w) (trace w ++ [e])).

End Monad.

Declare Scope py_scope.
Delimit Scope py_scope with py.
Notation "x <- m ;; k" := (bind m (fun x => k))
  (at level 20, m at level 99, k at level 200, only parsing) : py_scope.
Notation "m ;; k" := (bind m (fun _ => k))
  (at level 100, k at level 200, only parsing, right associativity) : py_scope.
Local Open Scope py_scope.

(* ================================================================= *)
(** ** Dict objects *)

Section Dicts.
Context {T : Type}.

(** The dict a reference points to. *)
Definition deref (l : loc) : M T pydict :=
  gets (fun w => default ∅ (heap w !! l)).

Definition assign (l : loc) (d : pydict) : M T unit :=
  h <- gets heap ;; set_heap (<[l := d]> h).

(** [{}]: a new, empty dict object. *)
Definition new_dict : M T loc :=
  h <- gets heap ;;
  let l := fresh (dom h) in
  set_heap (<[l := ∅]> h) ;;
  ret l.

(** Truth value of a dict: non-empty. *)
Definition dict_truthy (d : pydict) : bool := negb (Nat.eqb (size d) 0).

(** [p or {}] for [p] being [None] or a dict: a non-empty dict is
    returned itself (the same object), otherwise a new dict is made. *)
Definition or_new_dict (p : option loc) : M T loc :=
  match p with
  | None => new_dict
  | Some l =>
      d <- deref l ;;
      if dict_truthy d then ret l else new_dict
  end.

(** [l.update(src)]: every key of [src] is written into [l]. *)
Definition dict_update (l src : loc) : M T unit :=
  d <- deref l ;;
  o <- deref src ;;
  assign l (o ∪ d).

(** [l[k] = v] *)
Definition dict_setitem (l : loc) (k : string) (v : value) : M T unit :=
  d <- deref l ;;
  assign l (<[k := v]> d).

End Dicts.

(* ================================================================= *)
(** ** endpoint.py *)

Definition Success_codes : list Z := [200; 201; 204].

(** [Endpoint._make_common_headers] *)
Definition _make_common_headers (auth_token content_type : option string)
  : gmap string string :=
  let headers : gmap string string := ∅ in
  let headers :=
    match auth_token with
    | Some tok => <["x-tableau-auth" := tok]> headers
    | None => headers
    end in
  let headers :=
    match content_type with
    | Some ct => <["content-type" := ct]> headers
    | None => headers
    end in
  headers.

(** [u'Server response from {0}:\n\t{1}'.format(url, text)] *)
Definition response_message (url text : string) : string :=
  "Server response from " ++ url ++ ":" ++ String "010" (String "009" "") ++ text.

(** ["This endpoint is not available in API version {}. Requires {}"],
    filled in with [str] of the two versions. *)
Definition unavailable_message (server_version minimum_supported : string)
  : string :=
  "This endpoint is not available in API version "
    ++ server_version ++ ". Requires " ++ minimum_supported.

Section Gateway.

(** The collaborators: [transport] is
    [parent_srv.session.get/put/post/delete], which answers with a
    response or raises; [decode] is [bytes.decode]. *)
Context {T : Type}.
Variable transport : verb -> string -> pydict -> T -> result Response.t * T.
Variable decode : bytes -> string -> result string.

(** Modelled from the spec: [ServerResponseError.from_response] lives
    in [exceptions.py]; by section 4.3 it turns any body, well formed
    or not, into an error value and never fails itself. *)
Variable from_response : bytes -> error_detail.

(** [method(url, **parameters)]: the callee receives the entries of
    the dict, not the dict object. *)
Definition call_transport (method : verb) (url : string) (parameters : loc)
  : M T Response.t :=
  kwargs <- deref parameters ;;
  emit (EvTransport method url kwargs) ;;
  fun w =>
    let '(r, s) := transport method url kwargs (session w) in
    (r, World (heap w) (parent_srv w) s (trace w)).

(** [body.decode(enc)] *)
Definition bytes_decode (body : bytes) (enc : string) : M T string :=
  emit (EvDecode body enc) ;;
  lift (decode body enc).

(** [logger.debug(msg)] *)
Definition logger_debug (msg : string) : M T unit := emit (EvLog msg).

(** [Endpoint._check_status] *)
Definition _check_status (server_response : Response.t) : M T unit :=
  if bool_decide (Response.status_code server_response ∈ Success_codes)
  then ret tt
  else raise (ServerResponseError (from_response (Response.content server_response))).

(** [Endpoint._make_request] *)
Definition _make_request (method : verb) (url : string) (content : value)
    (request_object : option RequestOptions)
    (auth_token content_type : option string) (parameters : option loc)
  : M T Response.t :=
  let url :=
    match request_object with
    | Some ro => apply_query_params ro url
    | None => url
    end in
  parameters <- or_new_dict parameters ;;
  http_options <- gets (fun w => Server.http_options (parent_srv w)) ;;
  dict_update parameters http_options ;;
  dict_setitem parameters "headers"
    (VDict (_make_common_headers auth_token content_type)) ;;
  (if is_not_None content
   then dict_setitem parameters "data" content
   else ret tt) ;;
  server_response <- call_transport method url parameters ;;
  _check_status server_response ;;
  match Response.encoding server_response with
  | Some enc =>
      if String.eqb enc "" then ret tt
      else
        text <- bytes_decode (Response.content server_response) enc ;;
        logger_debug (response_message url text)
  | None => ret tt
  end ;;
  ret server_response.

(** [self.parent_srv.auth_token] *)
Definition current_token : M T (option string) :=
  gets (fun w => Server.auth_token (parent_srv w)).

(** [Endpoint.get_unauthenticated_request] *)
Definition get_unauthenticated_request (url : string)
    (request_object : option RequestOptions) : M T Response.t :=
  _make_request GET url VNone request_object None None None.

(** [Endpoint.get_request] *)
Definition get_request (url : string) (request_object : option RequestOptions)
    (parameters : option loc) : M T Response.t :=
  auth_token <- current_token ;;
  _make_request GET url VNone request_object auth_token None parameters.

(** [Endpoint.delete_request]: the function ends without a [return]. *)
Definition delete_request (url : string) : M T unit :=
  auth_token <- current_token ;;
  _make_request DELETE url VNone None auth_token None None ;;
  ret tt.

(** [Endpoint.put_request]; [content_type] is ['text/xml'] unless the
    caller passes something else. *)
Definition put_request (url : string) (xml_request : value)
    (content_type : option string) : M T Response.t :=
  auth_token <- current_token ;;
  _make_request PUT url xml_request None auth_token content_type None.

(** [Endpoint.post_request] *)
Definition post_request (url : string) (xml_request : value)
    (content_type : option string) : M T Response.t :=
  auth_token <- current_token ;;
  _make_request POST url xml_request None auth_token content_type None.

(** A call to one of the five entry points, and what its caller gets
    back: the response object, or Python's [None]. *)
Inductive request :=
| GetUnauthenticated (url : string) (request_object : option RequestOptions)
| Get (url : string) (request_object : option RequestOptions)
      (parameters : option loc)
| Delete (url : string)
| Put (url : string) (xml_request : value) (content_type : option string)
| Post (url : string) (xml_request : value) (content_type : option string).

Definition perform (c : request) : M T (option Response.t) :=
  match c with
  | GetUnauthenticated url ro =>
      r <- get_unauthenticated_request url ro ;; ret (Some r)
  | Get url ro ps => r <- get_request url ro ps ;; ret (Some r)
  | Delete url => delete_request url ;; ret None
  | Put url x ct => r <- put_request url x ct ;; ret (Some r)
  | Post url x ct => r <- post_request url x ct ;; ret (Some r)
  end.

(** The transport verb an entry point uses. *)
Definition verb_of (c : request) : verb :=
  match c with
  | GetUnauthenticated _ _ | Get _ _ _ => GET
  | Delete _ => DELETE
  | Put _ _ _ => PUT
  | Post _ _ _ => POST
  end.

End Gateway.

(** The default of [put_request] and [post_request]. *)
Definition default_content_type : option string := Some "text/xml".

(* ================================================================= *)
(** ** The version gate *)

Section Api.
Context {T R : Type}.

(** A gated operation: [func(self, *args, **kwargs)]. *)
Definition operation : Type := list value -> pydict -> M T R.

(** Calling [func]: the ghost trace notes the call and its
    arguments, then the body runs. *)
Definition invoke (func : operation) (args : list value) (kwargs : pydict)
  : M T R :=
  emit (EvInvoke args kwargs) ;;
  func args kwargs.

(** [api(version)(func)], the [wrapper] that replaces [func]. *)
Definition api (version : string) (func : operation) : operation :=
  fun args kwargs =>
    v <- gets (fun w => Server.version (parent_srv w)) ;;
    let server_version := Version v in
    let minimum_supported := Version version in
    too_old <- lift (LooseVersion.lt server_version minimum_supported) ;;
    if (too_old : bool)
    then
      shown_server <- lift (LooseVersion.str server_version) ;;
      shown_minimum <- lift (LooseVersion.str minimum_supported) ;;
      raise (EndpointUnavailableError
               (unavailable_message shown_server shown_minimum))
    else invoke func args kwargs.

End Api.

(* ================================================================= *)
(** ** Sample collaborators *)

(** A transport that answers every call with the same response and
    counts the calls it has served. *)
Definition canned_transport (r : Response.t)
  : verb -> string -> pydict -> nat -> result Response.t * nat :=
  fun _ _ _ n => (Ok r, S n).

(** A codec registry that knows ["ascii"] only: anything else is a
    [LookupError], and a byte above 127 is a [UnicodeDecodeError]. *)
Definition ascii_decode (body : bytes) (enc : string) : result string :=
  if String.eqb enc "ascii" then
    if forallb (fun b => (Byte.to_N b <? 128)%N) body
    then Ok (string_of_list_byte body)
    else Raise (ExternalError "UnicodeDecodeError" "ordinal not in range(128)")
  else Raise (ExternalError "LookupError" enc).

(** Modelled from the spec: the fallback that section 4.3 asks of the
    error translator, a generic error carrying the raw body. *)
Definition generic_error (body : bytes) : error_detail :=
  ErrorDetail "" "Unknown server error" (string_of_list_byte body).

(** Sample responses: a binary success without declared encoding, a
    text success, a success whose body is not what its declared encoding
    says, and a failure with a declared encoding. *)
Definition binary_response : Response.t :=
  Response.Make 200 [x89; x50; xff] None.

Definition text_response : Response.t :=
  Response.Make 201 [x3c; x61; x2f; x3e] (Some "ascii").

Definition undecodable_response : Response.t :=
  Response.Make 200 [xff; xfe] (Some "ascii").

Definition not_found_response : Response.t :=
  Response.Make 404 [x3c; x65; x2f; x3e] (Some "ascii").

(** A gated operation that counts its own calls in the session state
    and answers with its first argument. *)
Definition counting_operation : @operation nat value :=
  fun args _ w =>
    (Ok (default VNone (head args)),
     World (heap w) (parent_srv w) (S (session w)) (trace w)).

(** A store with the session options at reference 1 and a caller's dict
    at reference 2. *)
Definition sample_world (opts params : pydict) : world nat :=
  World (<[2%positive := params]> (<[1%positive := opts]> ∅))
        (Server.Make (Some "tok") "2.3" 1%positive) 0%nat [].

(** A transport that fails every call with the same exception, and
    counts the calls all the same. *)
Definition failing_transport (e : exn)
  : verb -> string -> pydict -> nat -> result Response.t * nat :=
  fun _ _ _ n => (Raise e, S n).

(** A query-spec decorator that asks for pages of ten. *)
Definition page_size_10 : RequestOptions :=
  {| apply_query_params := fun url => url ++ "?pageSize=10" |}.

(* ================================================================= *)
(** ** Vocabulary of the statements *)

(** Numeric comparison of two lists of version numbers, component by
    component; a proper prefix is smaller. *)
Fixpoint numeric_ltb (a b : list N) : bool :=
  match a, b with
  | [], [] => false
  | [], _ :: _ => true
  | _ :: _, [] => false
  | x :: a', y :: b' =>
      if (x <? y)%N then true
      else if (y <? x)%N then false
      else numeric_ltb a' b'
  end.

(** Decimal notation of a number, and the dotted version string of a
    list of numbers: [dotted [2; 10] = "2.10"]. *)
Definition decimal (n : N) : string := NilEmpty.string_of_uint (N.to_uint n).

Definition dotted (ns : list N) : string := String.concat "." (map decimal ns).

(** The URL after the optional rewrite by [request_object]. *)
Definition rewritten (request_object : option RequestOptions) (url : string)
  : string :=
  match request_object with
  | Some ro => apply_query_params ro url
  | None => url
  end.

(** The entries of the caller's [parameters], none when it is [None]. *)
Definition caller_dict (parameters : option loc) (h : gmap loc pydict) : pydict :=
  match parameters with
  | Some l => default ∅ (h !! l)
  | None => ∅
  end.

(** The entries of [parent_srv.http_options]. *)
Definition session_options {T} (w : world T) : pydict :=
  default ∅ (heap w !! Server.http_options (parent_srv w)).

(** The dict object that [_make_request] fills in: the caller's own
    dict when that is non-empty, a new object otherwise. *)
Definition target (parameters : option loc) (h : gmap loc pydict) : loc :=
  match parameters with
  | Some l => if dict_truthy (default ∅ (h !! l)) then l else fresh (dom h)
  | None => fresh (dom h)
  end.

(** The keyword arguments described by steps 2 to 4 of the dispatch
    algorithm: session options over caller entries, then the computed
    headers, then the body. *)
Definition merged_bag (opts caller : pydict) (auth_token content_type : option string)
    (content : value) : pydict :=
  let bag := <["headers" := VDict (_make_common_headers auth_token content_type)]>
               (opts ∪ caller) in
  if is_not_None content then <["data" := content]> bag else bag.

(** [if server_response.encoding] *)
Definition encoding_declared (r : Response.t) : bool :=
  match Response.encoding r with
  | Some enc => negb (String.eqb enc "")
  | None => false
  end.

(** The transport calls recorded in a trace. *)
Definition transport_calls (tr : list event) : list (verb * string * pydict) :=
  omap (fun e => match e with
                 | EvTransport m u k => Some (m, u, k)
                 | _ => None
                 end) tr.

(** The arguments with which an entry point calls [_make_request]. *)
Record dispatch := Dispatch {
  d_method : verb;
  d_url : string;
  d_content : value;
  d_request_object : option RequestOptions;
  d_auth_token : option string;
  d_content_type : option string;
  d_parameters : option loc
}.

Definition dispatch_of (c : request) (srv : Server.t) : dispatch :=
  let tok := Server.auth_token srv in
  match c with
  | GetUnauthenticated url ro => Dispatch GET url VNone ro None None None
  | Get url ro ps => Dispatch GET url VNone ro tok None ps
  | Delete url => Dispatch DELETE url VNone None tok None None
  | Put url x ct => Dispatch PUT url x None tok ct None
  | Post url x ct => Dispatch POST url x None tok ct None
  end.

(** URL and keyword arguments that reach the transport for a call. *)
Definition sent_url (c : request) (srv : Server.t) : string :=
  let d := dispatch_of c srv in rewritten (d_request_object d) (d_url d).

Definition sent_kwargs {T} (c : request) (w : world T) : pydict :=
  let d := dispatch_of c (parent_srv w) in
  merged_bag (session_options w) (caller_dict (d_parameters d) (heap w))
             (d_auth_token d) (d_content_type d) (d_content d).

(** What the caller of an entry point receives for a response. *)
Definition returned (c : request) (r : Response.t) : option Response.t :=
  match c with
  | Delete _ => None
  | _ => Some r
  end.

(** The caller's dict object when [_make_request] works on it in
    place. *)
Definition updated_in_place {T} (c : request) (w : world T) : option loc :=
  match d_parameters (dispatch_of c (parent_srv w)) with
  | Some l => if dict_truthy (default ∅ (heap w !! l)) then Some l else None
  | None => None
  end.

(** A world with another store, with more trace, and the world right
    after the transport has answered a dispatch that filled in the dict
    at [l]. *)
Definition with_heap {T} (h : gmap loc pydict) (w : world T) : world T :=
  World h (parent_srv w) (session w) (trace w).

Definition and_then {T} (w : world T) (es : list event) : world T :=
  World (heap w) (parent_srv w) (session w) (trace w ++ es).

Definition after_transport {T}
    (transport : verb -> string -> pydict -> T -> result Response.t * T)
    (m : verb) (url : string) (kw : pydict) (l : loc) (w : world T) : world T :=
  World (<[l := kw]> (heap w)) (parent_srv w)
        (transport m url kw (session w)).2
        (trace w ++ [EvTransport m url kw]).

(** Strings made of decimal digits only. *)
Fixpoint all_digits (s : string) : bool :=
  match s with
  | EmptyString => true
  | String c s' =>
      LooseVersion.class_eqb (LooseVersion.classify c) LooseVersion.Digit
      && all_digits s'
  end.

(** The components that [parse] makes out of the pieces of a split. *)
Definition components (pieces : list string) : list LooseVersion.component :=
  map LooseVersion.to_component
      (filter (fun x => Is_true (LooseVersion.keep x)) pieces).

(* ================================================================= *)
(** * Properties *)

(** ** Versions written as dotted numbers *)

Module LooseVersionFacts.
Import LooseVersion.

Lemma string_of_uint_digits d : all_digits (NilEmpty.string_of_uint d) = true.
Proof. induction d; simpl; auto. Qed.

Lemma to_uint_nonnil n : N.to_uint n ≠ Decimal.Nil.
Proof. destruct n; simpl; [discriminate | apply Unsigned.to_uint_nonnil]. Qed.

Lemma decimal_shape n :
  ∃ c ds, decimal n = String c ds ∧ classify c = Digit ∧ all_digits ds = true.
Proof.
  unfold decimal. pose proof (to_uint_nonnil n) as Hn.
  pose proof (string_of_uint_digits (N.to_uint n)) as Hd.
  destruct (N.to_uint n); try congruence; simpl in *;
    eexists _, _; (split; [reflexivity | split; [reflexivity | exact Hd]]).
Qed.

Lemma int_decimal n : int (decimal n) = Some n.
Proof.
  destruct (decimal_shape n) as (c & ds & E & _ & _).
  unfold int. rewrite E. simpl String.eqb. rewrite <- E. unfold decimal.
  rewrite NilEmpty.usu. simpl. by rewrite DecimalN.Unsigned.of_to.
Qed.

Lemma keep_decimal n : keep (decimal n) = true.
Proof.
  destruct (decimal_shape n) as (c & ds & E & Hc & _). rewrite E.
  unfold keep. simpl.
  destruct (Ascii.eqb c ".") eqn:Hdot; [|reflexivity].
  apply Ascii.eqb_eq in Hdot. subst c. discriminate Hc.
Qed.

Lemma to_component_decimal n : to_component (decimal n) = CInt n.
Proof. unfold to_component. by rewrite int_decimal. Qed.

Lemma append_cons c s u : String c s ++ u = String c (s ++ u).
Proof. reflexivity. Qed.

Lemma append_empty_r s : s ++ "" = s.
Proof. induction s; [reflexivity|]. rewrite append_cons. congruence. Qed.

Lemma append_snoc acc c s : (acc ++ String c "") ++ s = acc ++ String c s.
Proof. induction acc; [reflexivity|]. rewrite !append_cons. congruence. Qed.

Lemma re_split_digits ds acc rest :
  all_digits ds = true →
  re_split (InRun Digit) acc (ds ++ rest) = re_split (InRun Digit) (acc ++ ds) rest.
Proof.
  revert acc. induction ds as [|c ds IH]; intros acc H.
  - rewrite append_empty_r. reflexivity.
  - apply andb_true_iff in H as [Hc Hds].
    change (String c ds ++ rest) with (String c (ds ++ rest)).
    cbn [re_split]. rewrite Hc.
    rewrite IH by done. by rewrite append_snoc.
Qed.

Lemma split_decimal_then n rest :
  split (decimal n ++ rest) = "" :: re_split (InRun Digit) (decimal n) rest.
Proof.
  destruct (decimal_shape n) as (c & ds & E & Hc & Hds). rewrite E.
  unfold split. change (String c ds ++ rest) with (String c (ds ++ rest)).
  cbn [re_split]. rewrite Hc. f_equal.
  by rewrite re_split_digits.
Qed.

Lemma dotted_one n : dotted [n] = decimal n.
Proof. reflexivity. Qed.

Lemma dotted_more n m ns :
  dotted (n :: m :: ns) = decimal n ++ String "." (dotted (m :: ns)).
Proof. reflexivity. Qed.

Lemma components_decimal n rest :
  components ("" :: decimal n :: rest) = CInt n :: components rest.
Proof.
  unfold components.
  rewrite filter_cons_False by (simpl; tauto).
  rewrite filter_cons_True by (rewrite keep_decimal; exact I).
  cbn [map]. by rewrite to_component_decimal.
Qed.

Lemma components_dotted ns : components (split (dotted ns)) = map CInt ns.
Proof.
  induction ns as [|n ns IH]; [reflexivity|].
  destruct ns as [|m ns].
  - rewrite dotted_one, <- (append_empty_r (decimal n)).
    rewrite split_decimal_then. cbn [re_split].
    rewrite components_decimal. reflexivity.
  - rewrite dotted_more, split_decimal_then. cbn [re_split].
    change (classify ".") with Dot. cbn [class_eqb].
    change (re_split InText "" ?s) with (split s).
    rewrite components_decimal. cbn [map]. f_equal.
    unfold components in *.
    rewrite filter_cons_False by (simpl; tauto).
    rewrite filter_cons_False by (simpl; tauto).
    exact IH.
Qed.

Lemma parse_dotted ns : parse (dotted ns) = map CInt ns.
Proof. apply components_dotted. Qed.

Lemma list_ltb_numeric ns ms :
  list_ltb (map CInt ns) (map CInt ms) = Some (numeric_ltb ns ms).
Proof.
  revert ms. induction ns as [|n ns IH]; intros [|m ms]; simpl; try reflexivity.
  destruct (N.eqb_spec n m) as [->|Hne].
  - rewrite N.ltb_irrefl. apply IH.
  - destruct (N.ltb_spec n m); [reflexivity|].
    destruct (N.ltb_spec m n); [reflexivity | lia].
Qed.

Lemma list_eqb_numeric ns ms :
  list_eqb (map CInt ns) (map CInt ms) = true ↔ ns = ms.
Proof.
  revert ms. induction ns as [|n ns IH]; intros [|m ms]; simpl; try done.
  rewrite andb_true_iff, N.eqb_eq, IH. split; [intros [-> ->]; done | by inversion 1].
Qed.

Lemma numeric_ltb_irrefl ns : numeric_ltb ns ns = false.
Proof. induction ns; simpl; [done|]. by rewrite N.ltb_irrefl. Qed.

Lemma numeric_ltb_total ns ms :
  ns ≠ ms → numeric_ltb ns ms = false → numeric_ltb ms ns = true.
Proof.
  revert ms. induction ns as [|n ns IH]; intros [|m ms]; simpl; try done.
  intros Hne. destruct (N.ltb_spec n m); [done|].
  destruct (N.ltb_spec m n); [done|].
  assert (n = m) by lia. subst. apply IH. congruence.
Qed.

Lemma numeric_ltb_asym ns ms :
  numeric_ltb ns ms = true → numeric_ltb ms ns = false.
Proof.
  revert ms. induction ns as [|n ns IH]; intros [|m ms]; simpl; try done.
  destruct (N.ltb_spec n m), (N.ltb_spec m n); try done; try lia.
  apply IH.
Qed.

Lemma dotted_nonempty ns : ns ≠ [] → dotted ns ≠ "".
Proof.
  destruct ns as [|n [|m ns]]; [done| |]; intros _.
  - rewrite dotted_one. by destruct (decimal_shape n) as (c & ds & -> & _).
  - rewrite dotted_more. by destruct (decimal_shape n) as (c & ds & -> & _).
Qed.

Lemma new_dotted ns :
  ns ≠ [] → Version (dotted ns) = Parsed (dotted ns) (map CInt ns).
Proof.
  intros H. unfold new. apply dotted_nonempty, String.eqb_neq in H.
  by rewrite H, parse_dotted.
Qed.

Lemma lt_dotted ns ms :
  ns ≠ [] → ms ≠ [] →
  lt (Version (dotted ns)) (Version (dotted ms)) = Ok (numeric_ltb ns ms).
Proof.
  intros Hn Hm. unfold lt, _cmp. rewrite !new_dotted by done. cbn [version].
  destruct (list_eqb (map CInt ns) (map CInt ms)) eqn:E.
  - apply list_eqb_numeric in E. subst. by rewrite numeric_ltb_irrefl.
  - rewrite !list_ltb_numeric.
    destruct (numeric_ltb ns ms) eqn:L; [reflexivity|].
    rewrite numeric_ltb_total; [reflexivity| |done].
    intros ->. rewrite (proj2 (list_eqb_numeric ms ms)) in E; done.
Qed.

Lemma gt_dotted ns ms :
  ns ≠ [] → ms ≠ [] →
  gt (Version (dotted ns)) (Version (dotted ms)) = Ok (numeric_ltb ms ns).
Proof.
  intros Hn Hm. unfold gt, _cmp. rewrite !new_dotted by done. cbn [version].
  destruct (list_eqb (map CInt ns) (map CInt ms)) eqn:E.
  - apply list_eqb_numeric in E. subst. by rewrite numeric_ltb_irrefl.
  - rewrite !list_ltb_numeric.
    destruct (numeric_ltb ns ms) eqn:L.
    + by rewrite (numeric_ltb_asym ns ms).
    + rewrite numeric_ltb_total; [reflexivity| |done].
      intros ->. rewrite (proj2 (list_eqb_numeric ms ms)) in E; done.
Qed.

(** A comparison that evaluates has parsed both versions, and [str]
    gives back the strings they were built from. *)
Lemma lt_Ok_str (a b : string) (r : bool) :
  lt (Version a) (Version b) = Ok r →
  str (Version a) = Ok a ∧ str (Version b) = Ok b.
Proof.
  unfold lt, _cmp, new.
  destruct (String.eqb a ""); [discriminate|].
  destruct (String.eqb b ""); [discriminate|]. done.
Qed.

End LooseVersionFacts.

(* ================================================================= *)
(** ** The dispatcher, step by step *)

Section GatewayFacts.
Context {T : Type}.
Variable transport : verb -> string -> pydict -> T -> result Response.t * T.
Variable decode : bytes -> string -> result string.
Variable from_response : bytes -> error_detail.

Lemma dict_truthy_false (d : pydict) : dict_truthy d = false → d = ∅.
Proof.
  unfold dict_truthy. intros H. apply negb_false_iff, Nat.eqb_eq in H.
  by apply map_size_empty_iff.
Qed.

Lemma fresh_lookup (h : gmap loc pydict) : h !! fresh (dom h) = None.
Proof. apply not_elem_of_dom, is_fresh. Qed.

Lemma target_caller ps (h : gmap loc pydict) :
  default ∅ (h !! target ps h) = caller_dict ps h.
Proof.
  destruct ps as [l|]; simpl.
  - destruct (dict_truthy (default ∅ (h !! l))) eqn:E; [done|].
    rewrite fresh_lookup. simpl. symmetry. by apply dict_truthy_false.
  - by rewrite fresh_lookup.
Qed.

Lemma bind_ok {A B} (m : M T A) (f : A → M T B) w a w' :
  m w = (Ok a, w') → bind m f w = f a w'.
Proof. unfold bind. by intros ->. Qed.

Lemma lookup_room ps (h : gmap loc pydict) x :
  default ∅ (<[target ps h := caller_dict ps h]> h !! x) = default ∅ (h !! x).
Proof.
  destruct (decide (target ps h = x)) as [<-|].
  - by rewrite lookup_insert_eq, target_caller.
  - by rewrite lookup_insert_ne.
Qed.

Lemma or_new_dict_run ps (w : world T) :
  or_new_dict ps w
  = (Ok (target ps (heap w)),
     with_heap (<[target ps (heap w) := caller_dict ps (heap w)]> (heap w)) w).
Proof.
  destruct w as [h srv s tr]. unfold or_new_dict, target, caller_dict.
  destruct ps as [l|]; [|reflexivity]. cbn.
  destruct (dict_truthy (default ∅ (h !! l))) eqn:E.
  - destruct (h !! l) as [d|] eqn:Hl; [|discriminate E].
    unfold ret, with_heap. cbn. by rewrite insert_id.
  - apply dict_truthy_false in E. unfold new_dict, with_heap. cbn.
    by rewrite E.
Qed.

Lemma dict_update_run l src (w : world T) :
  dict_update l src w
  = (Ok tt, with_heap (<[l := default ∅ (heap w !! src) ∪ default ∅ (heap w !! l)]>
                         (heap w)) w).
Proof. reflexivity. Qed.

Lemma dict_setitem_run l k v (w : world T) :
  dict_setitem l k v w
  = (Ok tt, with_heap (<[l := <[k := v]> (default ∅ (heap w !! l))]> (heap w)) w).
Proof. reflexivity. Qed.

Lemma prepare_run {A} ps tok ct content (k : loc → M T A) (w : world T) :
  (parameters <- or_new_dict ps ;;
   http_options <- gets (fun w => Server.http_options (parent_srv w)) ;;
   dict_update parameters http_options ;;
   dict_setitem parameters "headers" (VDict (_make_common_headers tok ct)) ;;
   (if is_not_None content
    then dict_setitem parameters "data" content
    else ret tt) ;;
   k parameters)%py w
  = k (target ps (heap w))
      (with_heap (<[target ps (heap w) :=
                     merged_bag (session_options w) (caller_dict ps (heap w))
                                tok ct content]> (heap w)) w).
Proof.
  erewrite bind_ok by apply or_new_dict_run.
  erewrite bind_ok by reflexivity.
  erewrite bind_ok by apply dict_update_run.
  erewrite bind_ok by apply dict_setitem_run.
  unfold merged_bag, session_options.
  destruct w as [h srv s tr]. unfold with_heap. cbn [heap parent_srv session trace].
  rewrite lookup_room, !lookup_insert_eq. cbn [default].
  destruct (is_not_None content).
  - erewrite bind_ok by apply dict_setitem_run.
    unfold with_heap. cbn [heap parent_srv session trace].
    by rewrite lookup_insert_eq, !insert_insert_eq.
  - erewrite bind_ok by reflexivity. by rewrite !insert_insert_eq.
Qed.

Lemma call_transport_run m url l (w : world T) :
  let kw := default ∅ (heap w !! l) in
  call_transport transport m url l w
  = ((transport m url kw (session w)).1,
     World (heap w) (parent_srv w) (transport m url kw (session w)).2
           (trace w ++ [EvTransport m url kw])).
Proof.
  unfold call_transport, bind, deref, gets, emit. cbn.
  by destruct (transport m url (default ∅ (heap w !! l)) (session w)).
Qed.

Lemma _make_request_run m url content ro tok ct ps (w : world T) :
  let url' := rewritten ro url in
  let kw := merged_bag (session_options w) (caller_dict ps (heap w)) tok ct content in
  let w1 := after_transport transport m url' kw (target ps (heap w)) w in
  _make_request transport decode from_response m url content ro tok ct ps w =
  match (transport m url' kw (session w)).1 with
  | Raise e => (Raise e, w1)
  | Ok resp =>
      if bool_decide (Response.status_code resp ∈ Success_codes) then
        if encoding_declared resp then
          let enc := default "" (Response.encoding resp) in
          match decode (Response.content resp) enc with
          | Ok text =>
              (Ok resp, and_then w1 [EvDecode (Response.content resp) enc;
                                     EvLog (response_message url' text)])
          | Raise e => (Raise e, and_then w1 [EvDecode (Response.content resp) enc])
          end
        else (Ok resp, w1)
      else (Raise (ServerResponseError (from_response (Response.content resp))), w1)
  end.
Proof.
  intros url' kw w1. unfold _make_request.
  change (match ro with
          | Some ro0 => apply_query_params ro0 url
          | None => url
          end) with url'.
  rewrite prepare_run. fold kw.
  unfold bind at 1. rewrite call_transport_run.
  unfold with_heap. cbn [heap parent_srv session trace].
  rewrite lookup_insert_eq.
  change (default ∅ (Some kw)) with kw.
  change (World _ _ _ _) with w1.
  destruct (transport m url' kw (session w)).1 as [resp|e]; [|reflexivity].
  unfold _check_status, encoding_declared.
  destruct (bool_decide (Response.status_code resp ∈ Success_codes));
    [|reflexivity].
  destruct (Response.encoding resp) as [enc|]; [|reflexivity].
  destruct (String.eqb enc ""); [reflexivity|].
  change (default "" (Some enc)) with enc. cbn [negb].
  cbv [bind bytes_decode emit lift logger_debug ret and_then].
  destruct (decode (Response.content resp) enc); [|reflexivity].
  cbn [heap parent_srv session trace]. by rewrite <- app_assoc.
Qed.

(** An entry point is [_make_request] on its [dispatch_of] arguments,
    with the response handed back or dropped. *)
Lemma perform_run (c : request) (w : world T) :
  let d := dispatch_of c (parent_srv w) in
  perform transport decode from_response c w =
  match _make_request transport decode from_response
          (d_method d) (d_url d) (d_content d) (d_request_object d)
          (d_auth_token d) (d_content_type d) (d_parameters d) w with
  | (Ok r, w') => (Ok (returned c r), w')
  | (Raise e, w') => (Raise e, w')
  end.
Proof.
  destruct c;
    cbv [perform get_unauthenticated_request get_request delete_request
         put_request post_request current_token bind gets ret returned
         dispatch_of d_method d_url d_content d_request_object d_auth_token
         d_content_type d_parameters];
    match goal with
    | |- context [_make_request ?a ?b ?c ?d ?e ?f ?g ?h ?i ?j ?k] =>
        destruct (_make_request a b c d e f g h i j k) as [[] ?]
    end; reflexivity.
Qed.

Lemma d_method_verb_of c srv : d_method (dispatch_of c srv) = verb_of c.
Proof. by destruct c. Qed.

(** The closed form of an entry point. *)
Lemma perform_outcome (c : request) (w : world T) :
  let m := verb_of c in
  let url := sent_url c (parent_srv w) in
  let kw := sent_kwargs c w in
  let l := target (d_parameters (dispatch_of c (parent_srv w))) (heap w) in
  let w1 := after_transport transport m url kw l w in
  perform transport decode from_response c w =
  match (transport m url kw (session w)).1 with
  | Raise e => (Raise e, w1)
  | Ok resp =>
      if bool_decide (Response.status_code resp ∈ Success_codes) then
        if encoding_declared resp then
          let enc := default "" (Response.encoding resp) in
          match decode (Response.content resp) enc with
          | Ok text =>
              (Ok (returned c resp),
               and_then w1 [EvDecode (Response.content resp) enc;
                            EvLog (response_message url text)])
          | Raise e => (Raise e, and_then w1 [EvDecode (Response.content resp) enc])
          end
        else (Ok (returned c resp), w1)
      else (Raise (ServerResponseError (from_response (Response.content resp))), w1)
  end.
Proof.
  intros m url kw l w1. rewrite perform_run, _make_request_run.
  rewrite d_method_verb_of.
  change (rewritten _ _) with url. change (merged_bag _ _ _ _ _) with kw.
  change (after_transport _ _ _ _ _ _) with w1.
  destruct (transport _ url kw (session w)).1 as [resp|e]; [|reflexivity].
  destruct (bool_decide _); [|reflexivity].
  destruct (encoding_declared resp); [|reflexivity].
  cbv zeta. by destruct (decode _ _).
Qed.

End GatewayFacts.

(* ================================================================= *)
(** ** The success set *)

Lemma Success_codes_spec (status : Z) :
  status ∈ Success_codes ↔ status = 200 ∨ status = 201 ∨ status = 204.
Proof.
  unfold Success_codes. rewrite !elem_of_cons, elem_of_nil. tauto.
Qed.

(* ================================================================= *)
(** ** The header builder *)

(** C4 (as amended).  The mapping built from an optional token and an
    optional content type holds the authentication header exactly when
    the token is not [None] -- the empty string included -- with the
    token as its value, unchanged; it holds the content-type header
    exactly when a content type is given, with that value; it holds
    nothing else; and it is empty when both inputs are [None]. *)
Theorem common_headers_exact (auth_token content_type : option string) :
  let headers := _make_common_headers auth_token content_type in
  headers !! "x-tableau-auth" = auth_token
  ∧ headers !! "content-type" = content_type
  ∧ (∀ k, k ≠ "x-tableau-auth" → k ≠ "content-type" → headers !! k = None)
  ∧ (auth_token = None → content_type = None → headers = ∅).
Proof.
  unfold _make_common_headers.
  destruct auth_token as [tok|], content_type as [ct|]; cbv zeta;
    repeat split; intros; subst; simplify_map_eq; done.
Qed.

Lemma common_headers_exact_witness :
  _make_common_headers None None = ∅.
Proof.
  exact (proj2 (proj2 (proj2 (common_headers_exact None None))) eq_refl eq_refl).
Defined.

(** C4, counterexample.  An empty token is a token: the authentication
    header is there, with the empty string as its value. *)
Lemma empty_token_still_sent :
  _make_common_headers (Some "") None !! "x-tableau-auth" = Some ""
  ∧ _make_common_headers (Some "") None ≠ ∅.
Proof.
  split; [reflexivity|].
  intros H. apply (f_equal (fun m => m !! "x-tableau-auth")) in H.
  discriminate H.
Qed.

(* ================================================================= *)
(** ** The version comparator *)

(** C5.  On version strings written as dotted decimal numbers -- one
    number at least -- the comparator of the gate decides [<] and [>]
    by comparing the numbers component by component, whatever their
    digit counts.  So ["2.10" > "2.9"] and ["2.9" < "2.10"], although
    as strings ["2.10"] sorts before ["2.9"]. *)
Theorem version_order_is_numeric :
  (∀ ns ms : list N,
     ns ≠ [] → ms ≠ [] →
     LooseVersion.lt (Version (dotted ns)) (Version (dotted ms))
       = Ok (numeric_ltb ns ms)
     ∧ LooseVersion.gt (Version (dotted ns)) (Version (dotted ms))
       = Ok (numeric_ltb ms ns))
  ∧ LooseVersion.gt (Version "2.10") (Version "2.9") = Ok true
  ∧ LooseVersion.lt (Version "2.9") (Version "2.10") = Ok true
  ∧ LooseVersion.lt (Version "2.10") (Version "2.9") = Ok false
  ∧ String.ltb "2.10" "2.9" = true.
Proof.
  split; [|repeat split; reflexivity].
  intros ns ms Hn Hm. split.
  - by apply LooseVersionFacts.lt_dotted.
  - by apply LooseVersionFacts.gt_dotted.
Qed.

Lemma version_order_is_numeric_witness :
  LooseVersion.lt (Version (dotted [2; 9]%N)) (Version (dotted [2; 10; 1]%N)) = Ok true
  ∧ LooseVersion.gt (Version (dotted [2; 9]%N)) (Version (dotted [2; 10; 1]%N))
    = Ok false.
Proof.
  exact (proj1 version_order_is_numeric [2; 9]%N [2; 10; 1]%N
           ltac:(discriminate) ltac:(discriminate)).
Defined.

(* ================================================================= *)
(** ** The version gate *)

Section ApiFacts.
Context {T R : Type}.

(** C1 (as amended).  Let the comparison of the server's version with
    the declared minimum come out as [b], as it does for all versions
    written as dotted numbers.  If [b] holds, the gate raises
    [EndpointUnavailableError] with a message that spells out both
    version strings, and the world is untouched: the wrapped operation
    did not run.  Otherwise the outcome is that of one call of the
    wrapped operation on the arguments given, result and effects
    alike. *)
Theorem version_gate (version : string) (func : @operation T R)
    (args : list value) (kwargs : pydict) (w : world T) (b : bool) :
  LooseVersion.lt (Version (Server.version (parent_srv w))) (Version version)
    = Ok b →
  api version func args kwargs w =
  if b
  then (Raise (EndpointUnavailableError
                 ("This endpoint is not available in API version "
                    ++ Server.version (parent_srv w)
                    ++ ". Requires " ++ version)), w)
  else func args kwargs (and_then w [EvInvoke args kwargs]).
Proof.
  intros H. destruct (LooseVersionFacts.lt_Ok_str _ _ _ H) as [Hs Hm].
  unfold api, bind, gets, lift, invoke, emit. rewrite H.
  destruct b; [|reflexivity]. by rewrite Hs, Hm.
Qed.

(** Versions written as dotted numbers, one number at least, can
    always be compared. *)
Lemma dotted_versions_comparable (ns ms : list N) :
  ns ≠ [] → ms ≠ [] →
  ∃ b, LooseVersion.lt (Version (dotted ns)) (Version (dotted ms)) = Ok b.
Proof. intros Hn Hm. eexists. by apply LooseVersionFacts.lt_dotted. Qed.

End ApiFacts.

Lemma version_gate_witness :
  api "2.10" counting_operation [VInt 7] ∅ (sample_world ∅ ∅)
  = (Raise (EndpointUnavailableError
              "This endpoint is not available in API version 2.3. Requires 2.10"),
     sample_world ∅ ∅)
  ∧ api "2.3" counting_operation [VInt 7] ∅ (sample_world ∅ ∅)
    = (Ok (VInt 7),
       World (heap (sample_world ∅ ∅)) (parent_srv (sample_world ∅ ∅)) 1%nat
             [EvInvoke [VInt 7] ∅]).
Proof.
  split.
  - apply (version_gate "2.10" counting_operation [VInt 7] ∅ (sample_world ∅ ∅) true).
    reflexivity.
  - apply (version_gate "2.3" counting_operation [VInt 7] ∅ (sample_world ∅ ∅) false).
    reflexivity.
Defined.

(** C1, counterexample.  The server is at ["2.3"], the declared minimum
    ["2.x"] or the empty string.  The server version is not found to
    be below the minimum -- the comparison raises -- and yet the
    wrapped operation is not called: the gate ends in the exception of
    the comparison. *)
Lemma gate_neither_refuses_nor_calls :
  LooseVersion.lt (Version "2.3") (Version "2.x") = Raise TypeError
  ∧ api "2.x" counting_operation [VInt 7] ∅ (sample_world ∅ ∅)
    = (Raise TypeError, sample_world ∅ ∅)
  ∧ LooseVersion.lt (Version "2.3") (Version "") = Raise AttributeError
  ∧ api "" counting_operation [VInt 7] ∅ (sample_world ∅ ∅)
    = (Raise AttributeError, sample_world ∅ ∅).
Proof. repeat split; reflexivity. Qed.

(* ================================================================= *)
(** ** The gateway *)

Section GatewayContract.
Context {T : Type}.
Variable transport : verb -> string -> pydict -> T -> result Response.t * T.
Variable decode : bytes -> string -> result string.
Variable from_response : bytes -> error_detail.

Local Open Scope list_scope.

Lemma transport_calls_snoc tr m url kw :
  transport_calls (tr ++ [EvTransport m url kw]) = transport_calls tr ++ [(m, url, kw)].
Proof. unfold transport_calls. by rewrite omap_app. Qed.

Lemma transport_calls_decode tr b e :
  transport_calls (tr ++ [EvDecode b e]) = transport_calls tr.
Proof. unfold transport_calls. rewrite omap_app. cbn. by rewrite app_nil_r. Qed.

Lemma transport_calls_decode_log tr b e msg :
  transport_calls (tr ++ [EvDecode b e; EvLog msg]) = transport_calls tr.
Proof. unfold transport_calls. rewrite omap_app. cbn. by rewrite app_nil_r. Qed.

(** Every dispatch makes exactly one transport call, on the rewritten
    URL and the merged keyword arguments. *)
Lemma _make_request_calls m url content ro tok ct ps (w : world T) :
  transport_calls (trace (_make_request transport decode from_response
                            m url content ro tok ct ps w).2)
  = transport_calls (trace w)
      ++ [(m, rewritten ro url,
           merged_bag (session_options w) (caller_dict ps (heap w)) tok ct content)].
Proof.
  rewrite _make_request_run. cbv zeta.
  destruct (transport _ _ _ _).1 as [resp|e]; cbn [snd];
    [|apply transport_calls_snoc].
  destruct (bool_decide _); [|apply transport_calls_snoc].
  destruct (encoding_declared resp); [|apply transport_calls_snoc].
  destruct (decode _ _); cbn [snd and_then after_transport trace].
  - by rewrite transport_calls_decode_log, transport_calls_snoc.
  - by rewrite transport_calls_decode, transport_calls_snoc.
Qed.

(** C9.  The one transport call of a dispatch carries, under
    ["headers"], exactly the mapping that the header builder makes
    from the token and content type of that dispatch -- whatever the
    caller's [parameters] and the session's [http_options] hold under
    that key. *)
Theorem headers_entry_is_computed (method : verb) (url : string)
    (content : value) (request_object : option RequestOptions)
    (auth_token content_type : option string) (parameters : option loc)
    (w : world T) :
  ∃ kwargs,
    transport_calls
      (trace (_make_request transport decode from_response
                            method url content request_object
                            auth_token content_type parameters w).2)
    = transport_calls (trace w) ++ [(method, rewritten request_object url, kwargs)]
    ∧ kwargs !! "headers" = Some (VDict (_make_common_headers auth_token content_type)).
Proof.
  eexists. split; [apply _make_request_calls|].
  unfold merged_bag. destruct (is_not_None content); by simplify_map_eq.
Qed.

(** C3 (as amended).  When the caller's [parameters] and the
    session's [http_options] both define a key, other than
    ["headers"], and other than ["data"] when a body is attached, the
    transport receives the session's value for it. *)
Theorem session_option_wins (method : verb) (url : string)
    (content : value) (request_object : option RequestOptions)
    (auth_token content_type : option string)
    (l : loc) (caller opts : pydict) (k : string) (a b : value) (w : world T) :
  heap w !! l = Some caller →
  caller !! k = Some a →
  heap w !! Server.http_options (parent_srv w) = Some opts →
  opts !! k = Some b →
  k ≠ "headers" →
  (is_not_None content = true → k ≠ "data") →
  ∃ kwargs,
    transport_calls
      (trace (_make_request transport decode from_response
                            method url content request_object
                            auth_token content_type (Some l) w).2)
    = transport_calls (trace w) ++ [(method, rewritten request_object url, kwargs)]
    ∧ kwargs !! k = Some b.
Proof.
  intros Hl Ha Ho Hb Hh Hd.
  eexists. split; [apply _make_request_calls|].
  unfold merged_bag, session_options, caller_dict. rewrite Hl, Ho. cbn [default].
  assert ((opts ∪ caller) !! k = Some b) as Hu.
  { apply lookup_union_Some_raw. by left. }
  destruct (is_not_None content).
  - rewrite lookup_insert_ne by (intros <-; by apply Hd).
    by rewrite lookup_insert_ne.
  - by rewrite lookup_insert_ne.
Qed.

(** C2 (as amended).  Let the transport answer a call through an
    entry point with [resp].  If the status is 200, 201 or 204 the
    status check raises nothing and, provided that decoding a
    declared encoding for the log does not fail, the caller of
    [get_unauthenticated_request], [get_request], [put_request] or
    [post_request] receives [resp] itself, and the caller of
    [delete_request] receives [None].  With any other status all five
    raise [ServerResponseError], built from the body. *)
Theorem status_decides_outcome (c : request) (w : world T)
    (resp : Response.t) (s' : T) :
  transport (verb_of c) (sent_url c (parent_srv w)) (sent_kwargs c w) (session w)
    = (Ok resp, s') →
  (Response.status_code resp ∈ Success_codes →
     _check_status from_response resp w = (Ok tt, w)
     ∧ ((encoding_declared resp = true →
         ∃ text, decode (Response.content resp)
                        (default "" (Response.encoding resp)) = Ok text) →
        (perform transport decode from_response c w).1
        = Ok (match c with Delete _ => None | _ => Some resp end)))
  ∧ (Response.status_code resp ∉ Success_codes →
     (perform transport decode from_response c w).1
     = Raise (ServerResponseError (from_response (Response.content resp)))).
Proof.
  intros Ht. rewrite perform_outcome. cbv zeta. rewrite Ht. cbn [fst].
  unfold _check_status. split.
  - intros Hin. rewrite bool_decide_eq_true_2 by done. split; [reflexivity|].
    intros Hdec. destruct (encoding_declared resp).
    + destruct Hdec as [text ->]; [done|]. by destruct c.
    + by destruct c.
  - intros Hout. by rewrite bool_decide_eq_false_2.
Qed.

(** C10.  When the transport answers with a status other than 200,
    201 or 204, the entry point raises [ServerResponseError] and the
    only call it has made is the transport call: the body was not
    decoded and nothing was logged, whatever encoding it declares. *)
Theorem failure_is_not_logged (c : request) (w : world T)
    (resp : Response.t) (s' : T) :
  transport (verb_of c) (sent_url c (parent_srv w)) (sent_kwargs c w) (session w)
    = (Ok resp, s') →
  Response.status_code resp ∉ Success_codes →
  (perform transport decode from_response c w).1
  = Raise (ServerResponseError (from_response (Response.content resp)))
  ∧ trace (perform transport decode from_response c w).2
    = trace w ++ [EvTransport (verb_of c) (sent_url c (parent_srv w))
                              (sent_kwargs c w)].
Proof.
  intros Ht Hout. rewrite perform_outcome. cbv zeta. rewrite Ht. cbn [fst].
  rewrite bool_decide_eq_false_2 by done. by split.
Qed.

(** C8.  When the response declares no encoding ([None] or the empty
    string), the only call the entry point has made is the transport
    call -- no decoding, no log entry -- and with a success status the
    caller gets its result; [decode] is never consulted, so it cannot
    fail, whatever the bytes of the body.  Decoding or logging took
    place only if an encoding was declared. *)
Theorem undeclared_encoding_is_not_decoded (c : request) (w : world T)
    (resp : Response.t) (s' : T) :
  transport (verb_of c) (sent_url c (parent_srv w)) (sent_kwargs c w) (session w)
    = (Ok resp, s') →
  (encoding_declared resp = false →
     trace (perform transport decode from_response c w).2
     = trace w ++ [EvTransport (verb_of c) (sent_url c (parent_srv w))
                               (sent_kwargs c w)]
     ∧ (Response.status_code resp ∈ Success_codes →
        (perform transport decode from_response c w).1 = Ok (returned c resp)))
  ∧ (∀ ev, ev ∈ trace (perform transport decode from_response c w).2 →
       (∃ body enc, ev = EvDecode body enc) ∨ (∃ msg, ev = EvLog msg) →
       ev ∈ trace w ∨ encoding_declared resp = true).
Proof.
  intros Ht. rewrite perform_outcome. cbv zeta. rewrite Ht. cbn [fst].
  split.
  - intros Hnone. rewrite Hnone.
    destruct (bool_decide _) eqn:Hs; cbn [fst snd]; (split; [reflexivity|]).
    + done.
    + intros Hin. apply bool_decide_eq_false in Hs. done.
  - intros ev Hev Hkind.
    destruct (encoding_declared resp); [by right|]. left.
    assert (ev ∈ trace w ++ [EvTransport (verb_of c) (sent_url c (parent_srv w))
                                         (sent_kwargs c w)]) as Hin.
    { by destruct (bool_decide _). }
    apply elem_of_app in Hin as [Hin|Hin]; [done|].
    apply list_elem_of_singleton in Hin. subst ev.
    destruct Hkind as [(? & ? & ?)|(? & ?)]; discriminate.
Qed.

(** C7.  [delete_request] never hands a response to its caller; when
    the transport answers with a success status and a body, and the
    log step does not fail, the caller receives [None]. *)
Theorem delete_returns_nothing (url : string) (w : world T) :
  (∀ r, (perform transport decode from_response (Delete url) w).1 ≠ Ok (Some r))
  ∧ (∀ resp s',
       transport DELETE url (sent_kwargs (Delete url) w) (session w) = (Ok resp, s') →
       Response.status_code resp ∈ Success_codes →
       (encoding_declared resp = true →
        ∃ text, decode (Response.content resp)
                       (default "" (Response.encoding resp)) = Ok text) →
       (perform transport decode from_response (Delete url) w).1 = Ok None).
Proof.
  rewrite perform_outcome. cbv zeta.
  change (verb_of (Delete url)) with DELETE.
  change (sent_url (Delete url) (parent_srv w)) with url.
  split.
  - intros r.
    destruct (transport _ _ _ _).1 as [resp|e]; [|done].
    destruct (bool_decide _); [|done].
    destruct (encoding_declared resp); [|done].
    cbv zeta. by destruct (decode _ _).
  - intros resp s' Ht Hin Hdec. rewrite Ht. cbn [fst].
    rewrite bool_decide_eq_true_2 by done.
    destruct (encoding_declared resp); [|done].
    by destruct Hdec as [text ->].
Qed.

(** C6 (as amended).  A call through an entry point leaves the
    session context as it was; what it adds to the trace is one
    transport call, followed by nothing, by a decoding that failed, or
    by a decoding and one log entry; the transport session is the one
    the transport returned; and every dict object of the store is as
    before, except the caller's [parameters] when that dict is not
    empty: [_make_request] works on that very object, which ends up
    holding the keyword arguments sent. *)
Theorem effects_of_a_call (c : request) (w : world T) :
  let w' := (perform transport decode from_response c w).2 in
  let sent := EvTransport (verb_of c) (sent_url c (parent_srv w)) (sent_kwargs c w) in
  parent_srv w' = parent_srv w
  ∧ session w'
    = (transport (verb_of c) (sent_url c (parent_srv w)) (sent_kwargs c w)
                 (session w)).2
  ∧ (trace w' = trace w ++ [sent]
     ∨ (∃ body enc, trace w' = trace w ++ [sent; EvDecode body enc])
     ∨ (∃ body enc msg,
          trace w' = trace w ++ [sent; EvDecode body enc; EvLog msg]))
  ∧ (∀ l, is_Some (heap w !! l) → updated_in_place c w ≠ Some l →
          heap w' !! l = heap w !! l)
  ∧ (∀ l, updated_in_place c w = Some l → heap w' !! l = Some (sent_kwargs c w)).
Proof.
  intros w' sent.
  set (l0 := target (d_parameters (dispatch_of c (parent_srv w))) (heap w)).
  set (w1 := after_transport transport (verb_of c) (sent_url c (parent_srv w))
                             (sent_kwargs c w) l0 w).
  assert (parent_srv w' = parent_srv w1 ∧ session w' = session w1
          ∧ heap w' = heap w1
          ∧ (trace w' = trace w1
             ∨ (∃ body enc, trace w' = trace w1 ++ [EvDecode body enc])
             ∨ (∃ body enc msg,
                  trace w' = trace w1 ++ [EvDecode body enc; EvLog msg])))
    as (Hsrv & Hses & Hheap & Htr).
  { subst w'. rewrite perform_outcome. cbv zeta. fold l0. fold w1.
    destruct (transport _ _ _ _).1 as [resp|e]; [|by repeat split; try left].
    destruct (bool_decide _); [|by repeat split; try left].
    destruct (encoding_declared resp); [|by repeat split; try left].
    destruct (decode _ _); cbn [snd and_then heap parent_srv session trace];
      repeat split; right; [right|left]; eauto. }
  rewrite Hsrv, Hses, Hheap. subst w1. cbn [after_transport heap parent_srv session trace] in *.
  split; [reflexivity|]. split; [reflexivity|]. split.
  { destruct Htr as [->|[(body & enc & ->)|(body & enc & msg & ->)]].
    - by left.
    - right; left. exists body, enc. by rewrite <- app_assoc.
    - right; right. exists body, enc, msg. by rewrite <- app_assoc. }
  unfold updated_in_place. subst l0. unfold target.
  destruct (d_parameters (dispatch_of c (parent_srv w))) as [l1|].
  - destruct (dict_truthy (default ∅ (heap w !! l1))) eqn:E.
    + split.
      * intros l _ Hne. apply lookup_insert_ne. congruence.
      * intros l [= <-]. apply lookup_insert_eq.
    + split; [|done].
      intros l [d Hd] _. apply lookup_insert_ne. intros <-.
      by rewrite fresh_lookup in Hd.
  - split; [|done].
    intros l [d Hd] _. apply lookup_insert_ne. intros <-.
    by rewrite fresh_lookup in Hd.
Qed.

End GatewayContract.

(* ================================================================= *)
(** ** The statements at work on sample calls *)

Lemma status_decides_outcome_witness :
  (perform (canned_transport text_response) ascii_decode generic_error
           (Put "/sites/1" (VStr "<a/>") default_content_type)
           (sample_world ∅ ∅)).1
  = Ok (Some text_response)
  ∧ (perform (canned_transport not_found_response) ascii_decode generic_error
             (Delete "/sites/1") (sample_world ∅ ∅)).1
    = Raise (ServerResponseError
               (generic_error (Response.content not_found_response))).
Proof.
  split.
  - refine (proj2 (proj1 (status_decides_outcome
                            (canned_transport text_response) ascii_decode generic_error
                            (Put "/sites/1" (VStr "<a/>") default_content_type)
                            (sample_world ∅ ∅) text_response 1%nat eq_refl) _) _).
    + apply Success_codes_spec. cbn. lia.
    + intros _. eexists. vm_compute. reflexivity.
  - refine (proj2 (status_decides_outcome
                     (canned_transport not_found_response) ascii_decode generic_error
                     (Delete "/sites/1") (sample_world ∅ ∅)
                     not_found_response 1%nat eq_refl) _).
    rewrite Success_codes_spec. cbn. lia.
Defined.

(** C2, counterexample.  A 200 answer to [delete_request] does not reach
    the caller, and a 200 answer whose body does not decode in its
    declared encoding ends in the codec's error. *)
Lemma success_status_is_not_enough :
  Response.status_code binary_response ∈ Success_codes
  ∧ (perform (canned_transport binary_response) ascii_decode generic_error
             (Delete "/sites/1") (sample_world ∅ ∅)).1 = Ok None
  ∧ Response.status_code undecodable_response ∈ Success_codes
  ∧ (perform (canned_transport undecodable_response) ascii_decode generic_error
             (Get "/sites" None None) (sample_world ∅ ∅)).1
    = Raise (ExternalError "UnicodeDecodeError" "ordinal not in range(128)").
Proof.
  repeat split; try (vm_compute; reflexivity); apply Success_codes_spec; cbn; lia.
Qed.

Lemma session_option_wins_witness :
  ∃ kwargs,
    transport_calls
      (trace (_make_request (canned_transport binary_response) ascii_decode generic_error
                GET "/sites" VNone None (Some "tok") None (Some 2%positive)
                (sample_world {["timeout" := VInt 30]} {["timeout" := VInt 5]})).2)
    = [(GET, "/sites", kwargs)]
    ∧ kwargs !! "timeout" = Some (VInt 30).
Proof.
  apply (session_option_wins (canned_transport binary_response) ascii_decode generic_error
           GET "/sites" VNone None (Some "tok") None 2%positive
           {["timeout" := VInt 5]} {["timeout" := VInt 30]} "timeout" (VInt 5) (VInt 30)
           (sample_world {["timeout" := VInt 30]} {["timeout" := VInt 5]}));
    try reflexivity; try discriminate.
Defined.

(** C3, counterexample.  Caller and session both define ["headers"];
    the transport receives neither value but the computed headers. *)
Lemma headers_key_is_not_the_sessions :
  trace (perform (canned_transport binary_response) ascii_decode generic_error
                 (Get "/sites" None (Some 2%positive))
                 (sample_world {["headers" := VStr "session"]}
                               {["headers" := VStr "caller"]})).2
  = [EvTransport GET "/sites"
       {["headers" := VDict {["x-tableau-auth" := "tok"]}]}]
  ∧ ({["headers" := VDict {["x-tableau-auth" := "tok"]}]} : pydict) !! "headers"
    ≠ Some (VStr "session").
Proof. split; [vm_compute; reflexivity | discriminate]. Qed.

Lemma failure_is_not_logged_witness :
  (perform (canned_transport not_found_response) ascii_decode generic_error
           (Get "/sites" None None) (sample_world ∅ ∅)).1
  = Raise (ServerResponseError (generic_error (Response.content not_found_response)))
  ∧ trace (perform (canned_transport not_found_response) ascii_decode generic_error
                   (Get "/sites" None None) (sample_world ∅ ∅)).2
    = [EvTransport GET "/sites" {["headers" := VDict {["x-tableau-auth" := "tok"]}]}].
Proof.
  assert (Response.status_code not_found_response ∉ Success_codes) as Hout
    by (rewrite Success_codes_spec; cbn; lia).
  exact (failure_is_not_logged (canned_transport not_found_response) ascii_decode
           generic_error (Get "/sites" None None) (sample_world ∅ ∅)
           not_found_response 1%nat eq_refl Hout).
Defined.

Lemma undeclared_encoding_is_not_decoded_witness :
  trace (perform (canned_transport binary_response) ascii_decode generic_error
                 (Get "/file" None None) (sample_world ∅ ∅)).2
  = [EvTransport GET "/file" {["headers" := VDict {["x-tableau-auth" := "tok"]}]}]
  ∧ (perform (canned_transport binary_response) ascii_decode generic_error
             (Get "/file" None None) (sample_world ∅ ∅)).1
    = Ok (Some binary_response).
Proof.
  destruct (proj1 (undeclared_encoding_is_not_decoded
                     (canned_transport binary_response) ascii_decode generic_error
                     (Get "/file" None None) (sample_world ∅ ∅)
                     binary_response 1%nat eq_refl) eq_refl) as [Htrace Hres].
  split; [exact Htrace|]. apply Hres. apply Success_codes_spec. cbn. lia.
Defined.

Lemma delete_returns_nothing_witness :
  (perform (canned_transport text_response) ascii_decode generic_error
           (Delete "/sites/1") (sample_world ∅ ∅)).1 = Ok None.
Proof.
  refine (proj2 (delete_returns_nothing
                   (canned_transport text_response) ascii_decode generic_error
                   "/sites/1" (sample_world ∅ ∅)) text_response 1%nat eq_refl _ _).
  - apply Success_codes_spec. cbn. lia.
  - intros _. eexists. vm_compute. reflexivity.
Defined.

Lemma effects_of_a_call_witness :
  heap (perform (canned_transport text_response) ascii_decode generic_error
                (Get "/sites" None (Some 2%positive))
                (sample_world {["timeout" := VInt 30]} ∅)).2 !! 1%positive
  = Some {["timeout" := VInt 30]}.
Proof.
  refine (proj1 (proj2 (proj2 (proj2 (effects_of_a_call
            (canned_transport text_response) ascii_decode generic_error
            (Get "/sites" None (Some 2%positive))
            (sample_world {["timeout" := VInt 30]} ∅))))) 1%positive _ _).
  - eexists. reflexivity.
  - vm_compute. discriminate.
Defined.

(** C6, counterexample.  A non-empty [parameters] dict passed to
    [get_request] is not the same after the call: it has taken up the
    session options and the headers. *)
Lemma caller_dict_is_updated :
  heap (sample_world {["timeout" := VInt 30]} {["page" := VInt 2]}) !! 2%positive
  = Some {["page" := VInt 2]}
  ∧ heap (perform (canned_transport binary_response) ascii_decode generic_error
                  (Get "/sites" None (Some 2%positive))
                  (sample_world {["timeout" := VInt 30]} {["page" := VInt 2]})).2
         !! 2%positive
    = Some (<["headers" := VDict {["x-tableau-auth" := "tok"]}]>
              (<["timeout" := VInt 30]> {["page" := VInt 2]})).
Proof. split; vm_compute; reflexivity. Qed.

(* ================================================================= *)
(** * Further properties *)

(** ** What each entry point hands to the transport, and what comes back *)

Section EntryPoints.
Context {T : Type}.
Variable transport : verb -> string -> pydict -> T -> result Response.t * T.
Variable decode : bytes -> string -> result string.
Variable from_response : bytes -> error_detail.
Local Open Scope list_scope.

Lemma perform_calls (c : request) (w : world T) :
  transport_calls (trace (perform transport decode from_response c w).2)
  = transport_calls (trace w)
      ++ [(verb_of c, sent_url c (parent_srv w), sent_kwargs c w)].
Proof.
  rewrite perform_outcome. cbv zeta.
  destruct (transport _ _ _ _).1 as [resp|e]; cbn [snd];
    [|apply transport_calls_snoc].
  destruct (bool_decide _); [|apply transport_calls_snoc].
  destruct (encoding_declared resp); [|apply transport_calls_snoc].
  destruct (decode _ _); cbn [snd and_then after_transport trace].
  - by rewrite transport_calls_decode_log, transport_calls_snoc.
  - by rewrite transport_calls_decode, transport_calls_snoc.
Qed.

Lemma perform_store (c : request) (w : world T) :
  heap (perform transport decode from_response c w).2
  = <[target (d_parameters (dispatch_of c (parent_srv w))) (heap w)
      := sent_kwargs c w]> (heap w)
  ∧ parent_srv (perform transport decode from_response c w).2 = parent_srv w.
Proof.
  rewrite perform_outcome. cbv zeta.
  destruct (transport _ _ _ _).1 as [resp|e]; [|done].
  destruct (bool_decide _); [|done].
  destruct (encoding_declared resp); [|done].
  by destruct (decode _ _).
Qed.

(** X1.  Each entry point calls the transport once, with its own verb
    -- GET for the two gets, DELETE, PUT, POST -- and with the URL it was
    given; only the gets rewrite the URL, and only when a
    [request_object] is passed. *)
Theorem verb_and_url_of_each_entry_point (c : request) (w : world T) :
  ∃ kwargs,
    transport_calls (trace (perform transport decode from_response c w).2)
    = transport_calls (trace w)
        ++ [(match c with
             | GetUnauthenticated _ _ | Get _ _ _ => GET
             | Delete _ => DELETE
             | Put _ _ _ => PUT
             | Post _ _ _ => POST
             end,
             match c with
             | GetUnauthenticated url (Some ro) | Get url (Some ro) _ =>
                 apply_query_params ro url
             | GetUnauthenticated url None | Get url None _
             | Delete url | Put url _ _ | Post url _ _ => url
             end,
             kwargs)].
Proof.
  eexists. rewrite perform_calls. do 3 f_equal.
  destruct c as [url [ro|]|url [ro|] ps|url|url x ct|url x ct]; reflexivity.
Qed.

(** X2.  The headers sent by each entry point:
    [get_unauthenticated_request] never sends the authentication header,
    even when the session holds a token; the other four send the token
    the session holds at the time of the call; [put_request] and
    [post_request] send the content type they were given, the others
    none. *)
Theorem headers_of_each_entry_point (c : request) (w : world T) :
  ∃ kwargs headers,
    transport_calls (trace (perform transport decode from_response c w).2)
    = transport_calls (trace w) ++ [(verb_of c, sent_url c (parent_srv w), kwargs)]
    ∧ kwargs !! "headers" = Some (VDict headers)
    ∧ headers !! "x-tableau-auth"
      = match c with
        | GetUnauthenticated _ _ => None
        | _ => Server.auth_token (parent_srv w)
        end
    ∧ headers !! "content-type"
      = match c with
        | Put _ _ content_type | Post _ _ content_type => content_type
        | _ => None
        end.
Proof.
  eexists _, _. split; [apply perform_calls|].
  unfold sent_kwargs, merged_bag. split.
  - destruct (is_not_None _); by simplify_map_eq.
  - unfold _make_common_headers.
    destruct c as [url ro|url ro ps|url|url x [ct|]|url x [ct|]];
      cbn [dispatch_of d_auth_token d_content_type];
      destruct (Server.auth_token (parent_srv w)); by simplify_map_eq.
Qed.

(** X3.  A body other than [None] -- the empty string included -- is
    handed to the transport under ["data"], in place of whatever the
    session options or the caller's parameters held there.  With
    [None] for a body the gateway adds nothing: ["data"] is what the
    session options, or failing that the caller's parameters, define,
    if anything. *)
Theorem body_is_attached_unless_None (method : verb) (url : string)
    (content : value) (request_object : option RequestOptions)
    (auth_token content_type : option string) (parameters : option loc)
    (w : world T) :
  ∃ kwargs,
    transport_calls
      (trace (_make_request transport decode from_response
                method url content request_object
                auth_token content_type parameters w).2)
    = transport_calls (trace w) ++ [(method, rewritten request_object url, kwargs)]
    ∧ kwargs !! "data"
      = match content with
        | VNone =>
            match session_options w !! "data" with
            | Some v => Some v
            | None => caller_dict parameters (heap w) !! "data"
            end
        | body => Some body
        end.
Proof.
  eexists. split; [apply _make_request_calls|].
  unfold merged_bag.
  destruct content; cbn [is_not_None]; try by simplify_map_eq.
  rewrite lookup_insert_ne by done. rewrite lookup_union.
  by destruct (session_options w !! "data"), (caller_dict parameters (heap w) !! "data").
Qed.

(** X4.  For every key other than ["headers"] and ["data"], the
    transport receives the session option when there is one, else the
    caller's value when there is one, else nothing: a caller's key
    that the session options do not define goes through unchanged. *)
Theorem other_keys_are_merged (method : verb) (url : string)
    (content : value) (request_object : option RequestOptions)
    (auth_token content_type : option string) (parameters : option loc)
    (k : string) (w : world T) :
  k ≠ "headers" → k ≠ "data" →
  ∃ kwargs,
    transport_calls
      (trace (_make_request transport decode from_response
                method url content request_object
                auth_token content_type parameters w).2)
    = transport_calls (trace w) ++ [(method, rewritten request_object url, kwargs)]
    ∧ kwargs !! k
      = match session_options w !! k with
        | Some v => Some v
        | None => caller_dict parameters (heap w) !! k
        end.
Proof.
  intros Hh Hd. eexists. split; [apply _make_request_calls|].
  unfold merged_bag.
  assert (∀ m : pydict, <["headers":=VDict (_make_common_headers auth_token content_type)]> m !! k
                        = m !! k) as Hins by (intros; by rewrite lookup_insert_ne).
  destruct (is_not_None content).
  - rewrite lookup_insert_ne by done. rewrite Hins, lookup_union.
    by destruct (session_options w !! k), (caller_dict parameters (heap w) !! k).
  - rewrite Hins, lookup_union.
    by destruct (session_options w !! k), (caller_dict parameters (heap w) !! k).
Qed.

(** X5.  An exception of the transport comes out of the entry point as
    it is.  Nothing was checked, decoded or logged, and nothing is
    retried: the trace ends with the one transport call, and the
    transport session is the one the transport left. *)
Theorem transport_error_propagates (c : request) (w : world T) (e : exn) (s' : T) :
  transport (verb_of c) (sent_url c (parent_srv w)) (sent_kwargs c w) (session w)
    = (Raise e, s') →
  (perform transport decode from_response c w).1 = Raise e
  ∧ session (perform transport decode from_response c w).2 = s'
  ∧ trace (perform transport decode from_response c w).2
    = trace w ++ [EvTransport (verb_of c) (sent_url c (parent_srv w))
                              (sent_kwargs c w)].
Proof.
  intros Ht. rewrite perform_outcome. cbv zeta. rewrite Ht. cbn. by rewrite Ht.
Qed.

(** X6.  When a response with a success status declares an encoding
    in which its body does not decode, the entry point ends in the
    codec's exception: the response is lost to the caller and nothing
    is logged. *)
Theorem decoding_error_propagates (c : request) (w : world T)
    (resp : Response.t) (s' : T) (enc : string) (e : exn) :
  transport (verb_of c) (sent_url c (parent_srv w)) (sent_kwargs c w) (session w)
    = (Ok resp, s') →
  Response.status_code resp ∈ Success_codes →
  Response.encoding resp = Some enc →
  enc ≠ "" →
  decode (Response.content resp) enc = Raise e →
  (perform transport decode from_response c w).1 = Raise e
  ∧ trace (perform transport decode from_response c w).2
    = trace w ++ [EvTransport (verb_of c) (sent_url c (parent_srv w))
                              (sent_kwargs c w);
                  EvDecode (Response.content resp) enc].
Proof.
  intros Ht Hin Henc Hne Hdec. rewrite perform_outcome. cbv zeta.
  rewrite Ht. cbn [fst]. rewrite bool_decide_eq_true_2 by done.
  unfold encoding_declared. rewrite Henc.
  apply String.eqb_neq in Hne. rewrite Hne. cbn [negb].
  change (default "" (Some enc)) with enc.
  rewrite Hdec. cbn. by rewrite <- app_assoc.
Qed.

(** X7.  When a response with a success status declares an encoding
    and its body decodes, exactly one log call follows the decoding,
    with the message built from the URL as sent (after the rewrite)
    and the decoded text, and the caller gets the response ([None] for
    a delete). *)
Theorem text_response_is_logged (c : request) (w : world T)
    (resp : Response.t) (s' : T) (enc text : string) :
  transport (verb_of c) (sent_url c (parent_srv w)) (sent_kwargs c w) (session w)
    = (Ok resp, s') →
  Response.status_code resp ∈ Success_codes →
  Response.encoding resp = Some enc →
  enc ≠ "" →
  decode (Response.content resp) enc = Ok text →
  (perform transport decode from_response c w).1
  = Ok (match c with Delete _ => None | _ => Some resp end)
  ∧ trace (perform transport decode from_response c w).2
    = trace w ++ [EvTransport (verb_of c) (sent_url c (parent_srv w))
                              (sent_kwargs c w);
                  EvDecode (Response.content resp) enc;
                  EvLog (response_message (sent_url c (parent_srv w)) text)].
Proof.
  intros Ht Hin Henc Hne Hdec. rewrite perform_outcome. cbv zeta.
  rewrite Ht. cbn [fst]. rewrite bool_decide_eq_true_2 by done.
  unfold encoding_declared. rewrite Henc.
  apply String.eqb_neq in Hne. rewrite Hne. cbn [negb].
  change (default "" (Some enc)) with enc.
  rewrite Hdec. cbn. rewrite <- app_assoc. by destruct c.
Qed.

(** X8.  Passing an empty dict as [parameters] is the same as passing
    none: result and final world coincide, and the caller's empty dict
    stays empty. *)
Theorem empty_parameters_are_no_parameters (url : string)
    (request_object : option RequestOptions) (l : loc) (w : world T) :
  heap w !! l = Some ∅ →
  perform transport decode from_response (Get url request_object (Some l)) w
  = perform transport decode from_response (Get url request_object None) w.
Proof.
  intros Hl. rewrite !perform_outcome. cbv zeta.
  unfold sent_kwargs, sent_url, target. cbn [dispatch_of d_parameters d_auth_token
    d_content_type d_content d_request_object d_url caller_dict verb_of returned].
  rewrite Hl. reflexivity.
Qed.

Lemma merged_bag_other (o c : pydict) tok ct content (k : string) :
  k ≠ "headers" → (is_not_None content = true → k ≠ "data") →
  merged_bag o c tok ct content !! k = (o ∪ c) !! k.
Proof.
  intros Hh Hd. unfold merged_bag. destruct (is_not_None content).
  - rewrite lookup_insert_ne by (intros <-; by apply Hd).
    by rewrite lookup_insert_ne.
  - by rewrite lookup_insert_ne.
Qed.

Lemma merged_bag_ext (o c X Y : pydict) tok ct content :
  (∀ k : string, k ≠ "headers" → (is_not_None content = true → k ≠ "data") →
        (X ∪ Y) !! k = (o ∪ c) !! k) →
  merged_bag X Y tok ct content = merged_bag o c tok ct content.
Proof.
  intros H. apply map_eq. intros k. unfold merged_bag.
  destruct (is_not_None content) eqn:E.
  - destruct (decide (k = "data")) as [->|Hd]; [by rewrite !lookup_insert_eq|].
    rewrite !(lookup_insert_ne _ "data") by done.
    destruct (decide (k = "headers")) as [->|Hh]; [by rewrite !lookup_insert_eq|].
    rewrite !lookup_insert_ne by done. by apply H.
  - destruct (decide (k = "headers")) as [->|Hh]; [by rewrite !lookup_insert_eq|].
    rewrite !lookup_insert_ne by done. by apply H.
Qed.

Lemma merged_bag_absorbs (o c X Y : pydict) tok ct content :
  X = o ∨ X = merged_bag o c tok ct content →
  Y = c ∨ Y = merged_bag o c tok ct content →
  merged_bag X Y tok ct content = merged_bag o c tok ct content.
Proof.
  intros HX HY. apply merged_bag_ext. intros k Hh Hd.
  pose proof (merged_bag_other o c tok ct content k Hh Hd) as Hkw.
  rewrite (lookup_union o c) in Hkw.
  rewrite (lookup_union X Y), (lookup_union o c).
  destruct HX as [->| ->], HY as [->| ->]; rewrite ?Hkw;
    by destruct (o !! k), (c !! k).
Qed.

Lemma sent_kwargs_again (c : request) (w : world T) :
  sent_kwargs c (perform transport decode from_response c w).2 = sent_kwargs c w.
Proof.
  destruct (perform_store c w) as [Hheap Hsrv].
  unfold sent_kwargs, session_options in *. rewrite Hsrv, Hheap.
  clear Hheap Hsrv. generalize (dispatch_of c (parent_srv w)). intros d.
  set (l0 := target (d_parameters d) (heap w)).
  apply merged_bag_absorbs.
  - destruct (decide (l0 = Server.http_options (parent_srv w))) as [<-|Hne].
    + right. by rewrite lookup_insert_eq.
    + left. by rewrite lookup_insert_ne.
  - clearbody l0. unfold caller_dict. destruct (d_parameters d) as [l|]; [|by left].
    destruct (decide (l0 = l)) as [<-|Hne].
    + right. by rewrite lookup_insert_eq.
    + left. by rewrite lookup_insert_ne.
Qed.

(** X9.  Making the same call twice in a row sends the same verb, URL
    and keyword arguments twice, whatever the first call ended in: the
    update that the first call left in a reused [parameters] dict is
    absorbed by the second. *)
Theorem repeated_call_sends_the_same (c : request) (w : world T) :
  ∃ kwargs,
    transport_calls
      (trace (perform transport decode from_response c
                (perform transport decode from_response c w).2).2)
    = transport_calls (trace w)
        ++ [(verb_of c, sent_url c (parent_srv w), kwargs);
            (verb_of c, sent_url c (parent_srv w), kwargs)].
Proof.
  exists (sent_kwargs c w).
  rewrite perform_calls, sent_kwargs_again, perform_calls.
  rewrite (proj2 (perform_store c w)). by rewrite <- app_assoc.
Qed.

Lemma union_self (m : pydict) : m ∪ m = m.
Proof. apply map_eq. intros k. rewrite lookup_union. by destruct (m !! k). Qed.

(** X10.  When the caller passes the session's own non-empty
    [http_options] dict as [parameters], that dict -- the session
    options of every later call -- ends up holding a ["headers"] entry
    with the headers of this call, token included. *)
Theorem session_options_passed_as_parameters (url : string)
    (request_object : option RequestOptions) (opts : pydict) (w : world T) :
  heap w !! Server.http_options (parent_srv w) = Some opts →
  opts ≠ ∅ →
  heap (perform transport decode from_response
          (Get url request_object (Some (Server.http_options (parent_srv w)))) w).2
    !! Server.http_options (parent_srv w)
  = Some (<["headers" := VDict (_make_common_headers
                                  (Server.auth_token (parent_srv w)) None)]> opts).
Proof.
  intros Ho Hne.
  assert (dict_truthy opts = true) as Htrue.
  { destruct (dict_truthy opts) eqn:E; [done|]. by apply dict_truthy_false in E. }
  rewrite (proj1 (perform_store _ w)).
  unfold target, sent_kwargs, session_options, merged_bag.
  cbn [dispatch_of d_parameters d_auth_token d_content_type d_content caller_dict
       is_not_None].
  rewrite Ho. change (default ∅ (Some opts)) with opts.
  rewrite Htrue, lookup_insert_eq.
  by rewrite union_self.
Qed.

End EntryPoints.

(* ================================================================= *)
(** ** More on the version gate *)

Section GateMore.
Context {T R : Type}.

Lemma component_eqb_refl a : LooseVersion.component_eqb a a = true.
Proof. destruct a; simpl; [apply N.eqb_refl | apply String.eqb_refl]. Qed.

Lemma list_eqb_refl a : LooseVersion.list_eqb a a = true.
Proof. induction a; simpl; [done|]. by rewrite component_eqb_refl. Qed.

Lemma lt_same (s : string) :
  s ≠ "" → LooseVersion.lt (Version s) (Version s) = Ok false.
Proof.
  intros H. apply String.eqb_neq in H.
  unfold LooseVersion.lt, LooseVersion._cmp, LooseVersion.new. rewrite H.
  cbn [LooseVersion.version]. by rewrite list_eqb_refl.
Qed.

Lemma numeric_ltb_prefix ns m ms : numeric_ltb ns (ns ++ m :: ms) = true.
Proof. induction ns; simpl; [done|]. by rewrite N.ltb_irrefl. Qed.

Lemma numeric_geb_trans a b c :
  numeric_ltb a b = false → numeric_ltb c a = false → numeric_ltb c b = false.
Proof.
  revert b c. induction a as [|x a IH]; intros [|y b] [|z c]; simpl; try done.
  destruct (N.ltb_spec x y), (N.ltb_spec y x), (N.ltb_spec z x), (N.ltb_spec x z),
    (N.ltb_spec z y), (N.ltb_spec y z); try done; try lia.
  apply IH.
Qed.

(** X11.  A server whose version string is the declared minimum
    itself passes the gate, whatever that string is as long as it is
    not empty, numeric or not: the wrapped operation is called once on
    the arguments given. *)
Theorem gate_admits_the_minimum_itself (version : string) (func : @operation T R)
    (args : list value) (kwargs : pydict) (w : world T) :
  version ≠ "" →
  Server.version (parent_srv w) = version →
  api version func args kwargs w
  = func args kwargs (and_then w [EvInvoke args kwargs]).
Proof.
  intros Hne Hv. unfold api, bind, gets, lift, invoke, emit.
  rewrite Hv, lt_same by done. reflexivity.
Qed.

(** X12.  When the comparison of the two versions raises, the gate
    ends in that exception and the wrapped operation is not called:
    the world is untouched. *)
Theorem gate_fails_closed (version : string) (func : @operation T R)
    (args : list value) (kwargs : pydict) (w : world T) (e : exn) :
  LooseVersion.lt (Version (Server.version (parent_srv w))) (Version version)
    = Raise e →
  api version func args kwargs w = (Raise e, w).
Proof.
  intros H. unfold api, bind, gets, lift. by rewrite H.
Qed.

(** X13.  Upgrading the server never closes an endpoint: if a server at
    version [older] is not below the minimum and [newer] is not below
    [older], the gate lets a server at version [newer] through.  The
    versions are dotted numbers, one number at least. *)
Theorem newer_server_keeps_endpoint (older newer minimum : list N)
    (func : @operation T R) (args : list value) (kwargs : pydict) (w : world T) :
  older ≠ [] → newer ≠ [] → minimum ≠ [] →
  numeric_ltb older minimum = false →
  numeric_ltb newer older = false →
  Server.version (parent_srv w) = dotted newer →
  api (dotted minimum) func args kwargs w
  = func args kwargs (and_then w [EvInvoke args kwargs]).
Proof.
  intros Ho Hn Hm H1 H2 Hv. unfold api, bind, gets, lift, invoke, emit.
  rewrite Hv, LooseVersionFacts.lt_dotted, (numeric_geb_trans older) by done.
  reflexivity.
Qed.

(** X14.  A version of one number at least is older than any extension
    of it by further numbers: a server reporting [2.3] is refused by an
    endpoint that requires [2.3.0], with the message naming both. *)
Theorem shorter_version_is_older (ns : list N) (m : N) (ms : list N)
    (func : @operation T R) (args : list value) (kwargs : pydict) (w : world T) :
  ns ≠ [] →
  Server.version (parent_srv w) = dotted ns →
  api (dotted (ns ++ m :: ms)) func args kwargs w
  = (Raise (EndpointUnavailableError
              ("This endpoint is not available in API version "
                 ++ dotted ns ++ ". Requires " ++ dotted (ns ++ m :: ms))%string), w).
Proof.
  intros Hne Hv.
  assert ((ns ++ m :: ms)%list ≠ []) as Hext by (by destruct ns).
  unfold api, bind, gets, lift.
  rewrite Hv, LooseVersionFacts.lt_dotted, numeric_ltb_prefix by done.
  rewrite !LooseVersionFacts.new_dotted by done. reflexivity.
Qed.

End GateMore.

(* ================================================================= *)
(** ** The further statements at work on sample calls *)

Lemma other_keys_are_merged_witness :
  ∃ kwargs,
    transport_calls
      (trace (_make_request (canned_transport binary_response) ascii_decode generic_error
                GET "/sites" VNone None (Some "tok") None (Some 2%positive)
                (sample_world {["timeout" := VInt 30]} {["page" := VInt 2]})).2)
    = [(GET, "/sites", kwargs)]
    ∧ kwargs !! "page" = Some (VInt 2).
Proof.
  exact (other_keys_are_merged (canned_transport binary_response) ascii_decode
           generic_error GET "/sites" VNone None (Some "tok") None (Some 2%positive)
           "page" (sample_world {["timeout" := VInt 30]} {["page" := VInt 2]})
           ltac:(discriminate) ltac:(discriminate)).
Defined.

Lemma transport_error_propagates_witness :
  (perform (failing_transport (ExternalError "ConnectionError" "refused"))
           ascii_decode generic_error (Delete "/sites/1") (sample_world ∅ ∅)).1
  = Raise (ExternalError "ConnectionError" "refused")
  ∧ session (perform (failing_transport (ExternalError "ConnectionError" "refused"))
                     ascii_decode generic_error (Delete "/sites/1")
                     (sample_world ∅ ∅)).2 = 1%nat
  ∧ trace (perform (failing_transport (ExternalError "ConnectionError" "refused"))
                   ascii_decode generic_error (Delete "/sites/1")
                   (sample_world ∅ ∅)).2
    = [EvTransport DELETE "/sites/1"
         {["headers" := VDict {["x-tableau-auth" := "tok"]}]}].
Proof.
  exact (transport_error_propagates
           (failing_transport (ExternalError "ConnectionError" "refused"))
           ascii_decode generic_error (Delete "/sites/1") (sample_world ∅ ∅)
           (ExternalError "ConnectionError" "refused") 1%nat eq_refl).
Defined.

Lemma decoding_error_propagates_witness :
  (perform (canned_transport undecodable_response) ascii_decode generic_error
           (Get "/sites" None None) (sample_world ∅ ∅)).1
  = Raise (ExternalError "UnicodeDecodeError" "ordinal not in range(128)")
  ∧ trace (perform (canned_transport undecodable_response) ascii_decode generic_error
                   (Get "/sites" None None) (sample_world ∅ ∅)).2
    = [EvTransport GET "/sites" {["headers" := VDict {["x-tableau-auth" := "tok"]}]};
       EvDecode (Response.content undecodable_response) "ascii"].
Proof.
  assert (Response.status_code undecodable_response ∈ Success_codes) as Hin
    by (apply Success_codes_spec; cbn; lia).
  exact (decoding_error_propagates (canned_transport undecodable_response)
           ascii_decode generic_error (Get "/sites" None None) (sample_world ∅ ∅)
           undecodable_response 1%nat "ascii"
           (ExternalError "UnicodeDecodeError" "ordinal not in range(128)")
           eq_refl Hin eq_refl ltac:(discriminate) eq_refl).
Defined.

Lemma text_response_is_logged_witness :
  (perform (canned_transport text_response) ascii_decode generic_error
           (Get "/sites" (Some page_size_10) None) (sample_world ∅ ∅)).1
  = Ok (Some text_response)
  ∧ trace (perform (canned_transport text_response) ascii_decode generic_error
                   (Get "/sites" (Some page_size_10) None) (sample_world ∅ ∅)).2
    = [EvTransport GET "/sites?pageSize=10"
         {["headers" := VDict {["x-tableau-auth" := "tok"]}]};
       EvDecode (Response.content text_response) "ascii";
       EvLog (response_message "/sites?pageSize=10" "<a/>")].
Proof.
  assert (Response.status_code text_response ∈ Success_codes) as Hin
    by (apply Success_codes_spec; cbn; lia).
  exact (text_response_is_logged (canned_transport text_response)
           ascii_decode generic_error (Get "/sites" (Some page_size_10) None)
           (sample_world ∅ ∅) text_response 1%nat "ascii" "<a/>"
           eq_refl Hin eq_refl ltac:(discriminate) eq_refl).
Defined.

Lemma empty_parameters_are_no_parameters_witness :
  perform (canned_transport text_response) ascii_decode generic_error
          (Get "/sites" None (Some 2%positive)) (sample_world ∅ ∅)
  = perform (canned_transport text_response) ascii_decode generic_error
            (Get "/sites" None None) (sample_world ∅ ∅).
Proof.
  exact (empty_parameters_are_no_parameters (canned_transport text_response)
           ascii_decode generic_error "/sites" None 2%positive (sample_world ∅ ∅)
           eq_refl).
Defined.

Lemma session_options_passed_as_parameters_witness :
  heap (perform (canned_transport binary_response) ascii_decode generic_error
                (Get "/sites" None (Some 1%positive))
                (sample_world {["timeout" := VInt 30]} ∅)).2 !! 1%positive
  = Some (<["headers" := VDict {["x-tableau-auth" := "tok"]}]>
            {["timeout" := VInt 30]}).
Proof.
  exact (session_options_passed_as_parameters (canned_transport binary_response)
           ascii_decode generic_error "/sites" None {["timeout" := VInt 30]}
           (sample_world {["timeout" := VInt 30]} ∅) eq_refl
           ltac:(intros H; apply (f_equal (fun m : pydict => m !! "timeout")) in H;
                 discriminate H)).
Defined.

Lemma gate_admits_the_minimum_itself_witness :
  api "2.3" counting_operation [VInt 7] ∅ (sample_world ∅ ∅)
  = (Ok (VInt 7),
     World (heap (sample_world ∅ ∅)) (parent_srv (sample_world ∅ ∅)) 1%nat
           [EvInvoke [VInt 7] ∅]).
Proof.
  exact (gate_admits_the_minimum_itself "2.3" counting_operation [VInt 7] ∅
           (sample_world ∅ ∅) ltac:(discriminate) eq_refl).
Defined.

Lemma gate_fails_closed_witness :
  api "2.x" counting_operation [VInt 7] ∅ (sample_world ∅ ∅)
  = (Raise TypeError, sample_world ∅ ∅).
Proof.
  exact (gate_fails_closed "2.x" counting_operation [VInt 7] ∅ (sample_world ∅ ∅)
           TypeError eq_refl).
Defined.

Lemma newer_server_keeps_endpoint_witness :
  api "2.1" counting_operation [VInt 7] ∅ (sample_world ∅ ∅)
  = (Ok (VInt 7),
     World (heap (sample_world ∅ ∅)) (parent_srv (sample_world ∅ ∅)) 1%nat
           [EvInvoke [VInt 7] ∅]).
Proof.
  exact (newer_server_keeps_endpoint [2; 2]%N [2; 3]%N [2; 1]%N counting_operation
           [VInt 7] ∅ (sample_world ∅ ∅)
           ltac:(discriminate) ltac:(discriminate) ltac:(discriminate)
           eq_refl eq_refl eq_refl).
Defined.

Lemma shorter_version_is_older_witness :
  api "2.3.0" counting_operation [VInt 7] ∅ (sample_world ∅ ∅)
  = (Raise (EndpointUnavailableError
              "This endpoint is not available in API version 2.3. Requires 2.3.0"),
     sample_world ∅ ∅).
Proof.
  exact (shorter_version_is_older [2; 3]%N 0%N [] counting_operation
           [VInt 7] ∅ (sample_world ∅ ∅) ltac:(discriminate) eq_refl).
Defined.
